(** * fairtest storefront models: the proximity-based price adjustment

    A shallow embedding of [testframework/models.py]: the three Django
    models [Product], [Competitor] and [Zipcode], and the one method with
    logic in it, [Product.adjusted_price].

    The embedding keeps the data the way the Python code has it:
    - [FloatField] values, the geodesic distance and the local [rate] are
      binary64 floats (Rocq's primitive floats);
    - [DecimalField] values are [decimal.Decimal] numbers (sign,
      coefficient, exponent), multiplied under Python's default arithmetic
      context (28 significant digits, round-half-even);
    - a queryset is the list of the rows it selects, in storage order;
    - exceptions and database reads are effects of a small monad: a
      computation either returns or raises, and appends the queries it
      issues to a log. *)

From Stdlib Require Import ZArith NArith Lia.
From Stdlib Require Import Floats.PrimFloat Floats.FloatOps Floats.SpecFloat.
From stdpp Require Import gmap strings list.

Set Warnings "-inexact-float".

(* ===================================================================== *)
(** * Exceptions, results and the query-logging monad *)
(* ===================================================================== *)

(** The exceptions the pricing path can raise. [IndexError] is what
    [queryset[0]] raises on an empty queryset, [KeyError] what
    [request.GET[k]] raises on a missing key, [ValueError] what the
    geodesy library raises when it has no distance to give; [Overflow]
    and [InvalidOperation] are the trapped signals of the decimal
    context. *)
Inductive exn : Set :=
| IndexError
| KeyError
| ValueError
| Overflow
| InvalidOperation.

Inductive result (A : Type) : Type :=
| Ok (a : A)
| Raise (e : exn).
Arguments Ok {A} a.
Arguments Raise {A} e.

(** The reads a computation sends to the relational store. *)
Inductive query : Set :=
| SelectZipcode (z : string)     (* Zipcode.objects.filter(zip=z) *)
| SelectCompetitors.             (* Competitor.objects.all()      *)

Module Py.

(** A computation reads the log of queries issued so far and gives back
    its outcome with the extended log. *)
Definition M (A : Type) : Type := list query -> result A * list query.

Definition ret {A} (a : A) : M A := fun log => (Ok a, log).

Definition raise {A} (e : exn) : M A := fun log => (Raise e, log).

Definition bind {A B} (m : M A) (f : A -> M B) : M B :=
  fun log =>
    match m log with
    | (Ok a, log') => f a log'
    | (Raise e, log') => (Raise e, log')
    end.

Definition tell (q : query) : M unit := fun log => (Ok tt, log ++ [q]).

Definition lift {A} (r : result A) : M A := fun log => (r, log).

(** Running a computation from an empty log. *)
Definition outcome {A} (m : M A) : result A := fst (m []).
Definition queries {A} (m : M A) : list query := snd (m []).

End Py.

Declare Scope py_scope.
Delimit Scope py_scope with py.
Notation "x <- m ;; k" := (Py.bind m (fun x => k))
  (at level 100, m at next level, right associativity) : py_scope.
Notation "m ;;; k" := (Py.bind m (fun _ => k))
  (at level 100, right associativity) : py_scope.

(** [for x in xs: body], where the body can [break]. *)
Inductive control : Set := Continue | Break.

Fixpoint for_each {A S : Type} (body : A -> S -> Py.M (control * S))
    (xs : list A) (s : S) : Py.M S :=
  match xs with
  | [] => Py.ret s
  | x :: xs' =>
      (r <- body x s ;;
       match r with
       | (Break, s') => Py.ret s'
       | (Continue, s') => for_each body xs' s'
       end)%py
  end.

(* ===================================================================== *)
(** * [decimal.Decimal] under the default context *)
(* ===================================================================== *)

(** A decimal number as Python stores it: sign, coefficient and exponent
    (the value is [(-1)^sign * coeff * 10^exp]), or one of the special
    values. *)
Inductive Decimal : Set :=
| Finite (sign : bool) (coeff : N) (exp : Z)
| Infinity (sign : bool)
| NaN.

Module Dec.

(** The default context: [prec=28], [rounding=ROUND_HALF_EVEN],
    [Emin=-999999], [Emax=999999], [clamp=0]; [Overflow] and
    [InvalidOperation] are trapped, [Rounded], [Inexact], [Subnormal],
    [Underflow] and [Clamped] are not. *)
Definition prec : Z := 28.
Definition Emax : Z := 999999.
Definition Emin : Z := -999999.
Definition Etiny : Z := Emin - prec + 1.
Definition Etop : Z := Emax - prec + 1.

(** [len(str(n))]: the number of decimal digits of [n]. *)
Fixpoint ndigits_fuel (fuel : nat) (n : N) : nat :=
  match fuel with
  | O => 1
  | S fuel' =>
      if (n <? 10)%N then 1%nat else S (ndigits_fuel fuel' (n / 10)%N)
  end.

Definition ndigits (n : N) : nat := ndigits_fuel (N.to_nat (N.log2 n)) n.

(** ROUND_HALF_EVEN when the last [k] digits of [c] are dropped: the
    kept coefficient, incremented when the dropped part is above one
    half, or exactly one half with an odd kept coefficient. *)
Definition round_half_even (c : N) (k : N) : N :=
  let unit := (10 ^ k)%N in
  let kept := (c / unit)%N in
  let dropped := (c mod unit)%N in
  match (2 * dropped ?= unit)%N with
  | Gt => (kept + 1)%N
  | Eq => if N.odd kept then (kept + 1)%N else kept
  | Lt => kept
  end.

(** [Decimal._fix(context)]: round to the context's precision and keep
    the exponent within its limits. *)
Definition fix_ (d : Decimal) : result Decimal :=
  match d with
  | Finite s c e =>
      if (c =? 0)%N then
        Ok (Finite s 0 (Z.min (Z.max e Etiny) Emax))
      else
        let exp_min := (Z.of_nat (ndigits c) + e - prec)%Z in
        if (exp_min >? Etop)%Z then Raise Overflow
        else
          let exp_min := Z.max exp_min Etiny in
          if (e <? exp_min)%Z then
            let c' := round_half_even c (Z.to_N (exp_min - e)) in
            let '(c', exp_min) :=
              if (Z.of_nat (ndigits c') >? prec)%Z
              then ((c' / 10)%N, (exp_min + 1)%Z)
              else (c', exp_min) in
            if (exp_min >? Etop)%Z then Raise Overflow
            else Ok (Finite s c' exp_min)
          else Ok d
  | _ => Ok d
  end.

(** [Decimal.__mul__]. *)
Definition mul (a b : Decimal) : result Decimal :=
  match a, b with
  | NaN, _ | _, NaN => Ok NaN
  | Infinity s, Infinity t => Ok (Infinity (xorb s t))
  | Infinity s, Finite t c _ =>
      if (c =? 0)%N then Raise InvalidOperation
      else Ok (Infinity (xorb s t))
  | Finite s c _, Infinity t =>
      if (c =? 0)%N then Raise InvalidOperation
      else Ok (Infinity (xorb s t))
  | Finite s1 c1 e1, Finite s2 c2 e2 =>
      fix_ (Finite (xorb s1 s2) (c1 * c2) (e1 + e2))
  end.

(** [float.as_integer_ratio] on [m * 2^-k]: the numerator in lowest
    terms and the exponent of the power of two left in the
    denominator. *)
Fixpoint lowest_terms (m : positive) (k : nat) : positive * nat :=
  match k, m with
  | S k', xO m' => lowest_terms m' k'
  | _, _ => (m, k)
  end.

(** [Decimal(f)] for a float [f] ([Decimal.from_float]): the exact value
    of the float, [n * 5^k] at exponent [-k] where [n / 2^k] is
    [abs(f).as_integer_ratio()]. *)
Definition of_float (f : float) : Decimal :=
  match Prim2SF f with
  | S754_zero s => Finite s 0 0
  | S754_infinity s => Infinity s
  | S754_nan => NaN
  | S754_finite s m e =>
      match e with
      | Zneg p =>
          let '(n, k) := lowest_terms m (Pos.to_nat p) in
          Finite s (Npos n * 5 ^ N.of_nat k) (- Z.of_nat k)
      | _ => Finite s (Npos m * 2 ^ Z.to_N e) 0
      end
  end.

(** What a [DecimalField(max_digits, decimal_places)] column holds: a
    finite number of at most [max_digits] digits, with at most
    [decimal_places] of them after the point. *)
Definition in_field (max_digits decimal_places : Z) (d : Decimal) : bool :=
  match d with
  | Finite _ c e =>
      (Z.of_N c <? 10 ^ max_digits)%Z
      && (- decimal_places <=? e)%Z && (e <=? 0)%Z
  | _ => false
  end.

(** [a == b] on decimals: numerical equality (equal values with
    different exponents are equal, and so are the two zeros; a NaN is
    equal to nothing). *)
Definition eqb (a b : Decimal) : bool :=
  match a, b with
  | Finite s1 c1 e1, Finite s2 c2 e2 =>
      let m := Z.min e1 e2 in
      let v1 := (c1 * 10 ^ Z.to_N (e1 - m))%N in
      let v2 := (c2 * 10 ^ Z.to_N (e2 - m))%N in
      (v1 =? v2)%N && ((v1 =? 0)%N || Bool.eqb s1 s2)
  | Infinity s1, Infinity s2 => Bool.eqb s1 s2
  | _, _ => false
  end.

(** A magnitude with its sign. *)
Definition signed (s : bool) (v : N) : Z :=
  if s then (- Z.of_N v)%Z else Z.of_N v.

(** [a < b] on decimals: the values are compared, the coefficients padded
    to the smaller exponent; ordering a NaN signals [InvalidOperation],
    which is trapped. *)
Definition lt (a b : Decimal) : result bool :=
  match a, b with
  | NaN, _ | _, NaN => Raise InvalidOperation
  | Infinity s1, Infinity s2 => Ok (s1 && negb s2)
  | Infinity s1, Finite _ _ _ => Ok s1
  | Finite _ _ _, Infinity s2 => Ok (negb s2)
  | Finite s1 c1 e1, Finite s2 c2 e2 =>
      let m := Z.min e1 e2 in
      Ok (signed s1 (c1 * 10 ^ Z.to_N (e1 - m))
          <? signed s2 (c2 * 10 ^ Z.to_N (e2 - m)))%Z
  end.

End Dec.

(* ===================================================================== *)
(** * The models *)
(* ===================================================================== *)

(** [class Product(models.Model)]. *)
Record Product : Set := {
  name : string;                 (* CharField(max_length=200) *)
  baseprice : Decimal            (* DecimalField(max_digits=15, decimal_places=2) *)
}.

(** The declared shape of the [baseprice] column. *)
Definition baseprice_in_field (p : Product) : Prop :=
  Dec.in_field 15 2 (baseprice p) = true.

Definition base_price (self : Product) : Decimal := baseprice self.

(** [class Competitor(models.Model)]. *)
Record Competitor : Set := {
  competitor_name : string;      (* name = CharField(max_length=200) *)
  address : string;              (* CharField(max_length=200) *)
  competitor_zip : string        (* zip = CharField(max_length=6) *)
}.

(** [class Zipcode(models.Model)]. *)
Record Zipcode : Set := {
  zip : string;                  (* CharField(max_length=6) *)
  city : string;                 (* CharField(max_length=50) *)
  state : string;                (* CharField(max_length=3) *)
  la : float;                    (* FloatField() *)
  lo : float                     (* FloatField() *)
}.

(** [Product.__str__]. *)
Definition Product_str (self : Product) : string := name self.

(** [Competitor.__str__]: [self.name + self.address]. *)
Definition Competitor_str (self : Competitor) : string :=
  String.append (competitor_name self) (address self).

(** [Zipcode.__str__]: [self.city + ", " + self.state + self.zip]. *)
Definition Zipcode_str (self : Zipcode) : string :=
  String.append (String.append (String.append (city self) ", ") (state self))
    (zip self).

Definition coordinate_t : Set := (float * float)%type.

Definition coordinate (self : Zipcode) : coordinate_t := (la self, lo self).

(** The rows of the two tables the method reads, in storage order. *)
Record Database : Set := {
  Zipcode_objects : list Zipcode;
  Competitor_objects : list Competitor
}.

(** [request.GET]: the query parameters, each name with the value that
    [get] and [[]] return for it. *)
Record HttpRequest : Set := {
  GET : gmap string string
}.

(** [geopy.distance.vincenty(a, b).miles]: the geodesic distance in
    miles between two (latitude, longitude) pairs, or [None] where the
    library raises [ValueError] instead (a latitude outside [-90, 90],
    an iteration that does not converge near antipodal points). The
    geodesy library is not part of the repository; the method is
    verified for whatever the library does on each pair. *)
Class Geodesy : Set := {
  vincenty_miles : coordinate_t -> coordinate_t -> option float
}.

(* ===================================================================== *)
(** * Queries *)
(* ===================================================================== *)

(** The rows of [Zipcode.objects.filter(zip=z)]: those with exactly this
    zip, in storage order. *)
Definition zip_rows (z : string) (rows : list Zipcode) : list Zipcode :=
  filter (fun r => zip r = z) rows.

(** [Zipcode.objects.filter(zip=z)]. *)
Definition Zipcode_filter (db : Database) (z : string) : Py.M (list Zipcode) :=
  (Py.tell (SelectZipcode z) ;;;
   Py.ret (zip_rows z (Zipcode_objects db)))%py.

(** [Competitor.objects.all()]. *)
Definition Competitor_all (db : Database) : Py.M (list Competitor) :=
  (Py.tell SelectCompetitors ;;;
   Py.ret (Competitor_objects db))%py.

(** [queryset[0]]. *)
Definition index0 {A} (rows : list A) : Py.M A :=
  match rows with
  | r :: _ => Py.ret r
  | [] => Py.raise IndexError
  end.

(** The coordinates a zip value resolves to: those of the first row of
    [Zipcode.objects.filter(zip=z)], when there is one. *)
Definition resolve (db : Database) (z : string) : option coordinate_t :=
  coordinate <$> head (zip_rows z (Zipcode_objects db)).

(** [request.GET.get(key, default)]. *)
Definition GET_get (request : HttpRequest) (key default : string) : string :=
  match GET request !! key with
  | Some v => v
  | None => default
  end.

(** [request.GET[key]]. *)
Definition GET_getitem (request : HttpRequest) (key : string) : Py.M string :=
  match GET request !! key with
  | Some v => Py.ret v
  | None => Py.raise KeyError
  end.

(** Truth value of a [str]: non-empty. *)
Definition truthy (s : string) : bool :=
  match s with
  | EmptyString => false
  | String _ _ => true
  end.

(** [str(x)] on a value that is a [str] already. *)
Definition str (s : string) : string := s.

(* ===================================================================== *)
(** * [Product.adjusted_price] *)
(* ===================================================================== *)

Section AdjustedPrice.

Context {geo : Geodesy}.

(** [Zipcode.objects.filter(zip=z)[0].coordinate()]. *)
Definition zip_coordinate (db : Database) (z : string) : Py.M coordinate_t :=
  (qs <- Zipcode_filter db z ;;
   row <- index0 qs ;;
   Py.ret (coordinate row))%py.

(** [vincenty(co, cz).miles]. *)
Definition vincenty (co cz : coordinate_t) : Py.M float :=
  match vincenty_miles co cz with
  | Some d => Py.ret d
  | None => Py.raise ValueError
  end.

(** The body of the [for c in Competitor.objects.all()] loop:
<<
    cz = Zipcode.objects.filter(zip=str(c.zip))[0].coordinate()
    if vincenty(co, cz).miles < 5:
        rate = 0.8
    break
>>
*)
Definition scan_body (db : Database) (co : coordinate_t)
    (c : Competitor) (rate : float) : Py.M (control * float) :=
  (cz <- zip_coordinate db (str (competitor_zip c)) ;;
   miles <- vincenty co cz ;;
   let rate := if (miles <? 5)%float then 0.8%float else rate in
   Py.ret (Break, rate))%py.

(** The rate the method arrives at before the final multiplication. *)
Definition adjusted_rate (db : Database) (request : HttpRequest) : Py.M float :=
  let rate := 1.0%float in
  if truthy (GET_get request "zip" "") then
    (z <- GET_getitem request "zip" ;;
     co <- zip_coordinate db z ;;
     cs <- Competitor_all db ;;
     for_each (scan_body db co) cs rate)%py
  else Py.ret rate.

(** [def adjusted_price(self, request)]. *)
Definition adjusted_price (db : Database) (self : Product)
    (request : HttpRequest) : Py.M Decimal :=
  (rate <- adjusted_rate db request ;;
   Py.lift (Dec.mul (baseprice self) (Dec.of_float rate)))%py.

End AdjustedPrice.

(* ===================================================================== *)
(** * Sample data *)
(* ===================================================================== *)

Module Sample.

(** A stand-in for the geodesy library, good enough to tell a
    neighbouring zip code from one across the country: 69 miles per
    degree along each axis. *)
Definition degree_miles : Geodesy :=
  {| vincenty_miles := fun a b =>
       Some (69 * (abs (fst a - fst b) + abs (snd a - snd b)))%float |}.

(** A geodesy library that raises on every pair. *)
Definition no_distance : Geodesy :=
  {| vincenty_miles := fun _ _ => None |}.

Definition san_francisco : Zipcode :=
  {| zip := "94103"; city := "San Francisco"; state := "CA";
     la := 37.77%float; lo := (-122.41)%float |}.

Definition civic_center : Zipcode :=
  {| zip := "94102"; city := "San Francisco"; state := "CA";
     la := 37.78%float; lo := (-122.42)%float |}.

Definition new_york : Zipcode :=
  {| zip := "10007"; city := "New York"; state := "NY";
     la := 40.71%float; lo := (-74.00)%float |}.

(** A second row for 94102, with New York's coordinates. *)
Definition civic_center_dup : Zipcode :=
  {| zip := "94102"; city := "San Francisco"; state := "CA";
     la := 40.71%float; lo := (-74.00)%float |}.

(** Two rows exactly 5.0 miles apart under [degree_miles]. *)
Definition origin : Zipcode :=
  {| zip := "00001"; city := "Origin"; state := "XX";
     la := 0%float; lo := 0%float |}.

Definition five_out : Zipcode :=
  {| zip := "00002"; city := "Five Out"; state := "XX";
     la := (5 / 69)%float; lo := 0%float |}.

Definition zipcodes : list Zipcode :=
  [san_francisco; civic_center; new_york; origin; five_out].

Definition near_shop : Competitor :=
  {| competitor_name := "Near"; address := "1 Market St"; competitor_zip := "94102" |}.

Definition far_shop : Competitor :=
  {| competitor_name := "Far"; address := "1 Broadway"; competitor_zip := "10007" |}.

Definition edge_shop : Competitor :=
  {| competitor_name := "Edge"; address := "5 Mile Rd"; competitor_zip := "00002" |}.

Definition lost_shop : Competitor :=
  {| competitor_name := "Lost"; address := "nowhere"; competitor_zip := "00000" |}.

Definition store (cs : list Competitor) : Database :=
  {| Zipcode_objects := zipcodes; Competitor_objects := cs |}.

(** base price 100.00 *)
Definition widget : Product :=
  {| name := "widget"; baseprice := Finite false 10000 (-2) |}.

Definition from_zip (z : string) : HttpRequest := {| GET := {[ "zip" := z ]} |}.
Definition no_zip : HttpRequest := {| GET := ∅ |}.

End Sample.

Import Sample.

(* ===================================================================== *)
(** * Decimal arithmetic *)
(* ===================================================================== *)

Module DecFacts.

Import Dec.

(** A number below [10^k] has at most [k] digits. *)
Lemma ndigits_fuel_le (fuel : nat) : forall (k : nat) (n : N),
  (1 <= k)%nat -> (n < 10 ^ N.of_nat k)%N -> (ndigits_fuel fuel n <= k)%nat.
Proof.
  induction fuel as [|fuel IH]; intros k n Hk Hn; simpl; [lia|].
  destruct (N.ltb_spec n 10) as [Hlt|Hge]; [lia|].
  destruct k as [|[|k]]; [lia| |].
  - change (10 ^ N.of_nat 1)%N with 10%N in Hn. lia.
  - apply le_n_S, IH; [lia|].
    replace (N.of_nat (S (S k))) with (N.succ (N.of_nat (S k))) in Hn by lia.
    rewrite N.pow_succ_r' in Hn.
    apply N.Div0.div_lt_upper_bound. lia.
Qed.

Lemma ndigits_le (k : nat) (n : N) :
  (1 <= k)%nat -> (n < 10 ^ N.of_nat k)%N -> (ndigits n <= k)%nat.
Proof. apply ndigits_fuel_le. Qed.

(** With enough fuel the count is the length of the decimal numeral:
    [10^(d-1) <= n < 10^d]. *)
Lemma ndigits_fuel_spec (fuel : nat) : forall n : N,
  (0 < n)%N -> (n < 10 * 2 ^ N.of_nat fuel)%N ->
  (10 ^ N.of_nat (ndigits_fuel fuel n - 1) <= n
   /\ n < 10 ^ N.of_nat (ndigits_fuel fuel n))%N.
Proof.
  induction fuel as [|fuel IH]; intros n Hpos Hn.
  - simpl in *. lia.
  - cbn [ndigits_fuel]. destruct (N.ltb_spec n 10) as [Hlt|Hge].
    + simpl. lia.
    + assert (Hq : (0 < n / 10)%N).
      { apply N.div_str_pos. lia. }
      assert (Hb : (n / 10 < 10 * 2 ^ N.of_nat fuel)%N).
      { apply N.Div0.div_lt_upper_bound.
        replace (N.of_nat (S fuel)) with (N.succ (N.of_nat fuel)) in Hn by lia.
        rewrite N.pow_succ_r' in Hn. lia. }
      destruct (IH _ Hq Hb) as [Hlo Hhi].
      set (d := ndigits_fuel fuel (n / 10)) in *.
      assert (Hd : (1 <= d)%nat).
      { subst d. destruct fuel; simpl; [lia|].
        destruct (n / 10 <? 10)%N; lia. }
      pose proof (N.Div0.div_mod n 10) as Hdm.
      pose proof (N.mod_upper_bound n 10 ltac:(lia)) as Hm.
      replace (S d - 1)%nat with (S (d - 1)) by lia.
      rewrite !Nat2N.inj_succ, !N.pow_succ_r'.
      generalize dependent (10 ^ N.of_nat (d - 1))%N.
      generalize dependent (10 ^ N.of_nat d)%N.
      generalize dependent (n / 10)%N. generalize dependent (n mod 10)%N.
      intros; lia.
Qed.

Lemma ndigits_spec (n : N) :
  (0 < n)%N ->
  (10 ^ N.of_nat (ndigits n - 1) <= n /\ n < 10 ^ N.of_nat (ndigits n))%N.
Proof.
  intros Hpos. apply ndigits_fuel_spec; [assumption|].
  rewrite N2Nat.id.
  destruct (N.log2_spec n Hpos) as [_ Hhi].
  rewrite N.pow_succ_r' in Hhi. lia.
Qed.

(** A number that fits the context is left alone by [_fix]. *)
Lemma fix_exact (s : bool) (c : N) (e : Z) :
  (c < 10 ^ 28)%N -> (Etiny <= e <= Etop)%Z ->
  fix_ (Finite s c e) = Ok (Finite s c e).
Proof.
  intros Hc He. unfold fix_, Etiny, Etop, Emin, Emax, prec in *.
  destruct (N.eqb_spec c 0) as [->|Hnz].
  - f_equal. f_equal. lia.
  - pose proof (ndigits_le 28 c ltac:(lia) Hc) as Hd.
    destruct (Z.gtb_spec (Z.of_nat (ndigits c) + e - 28) (999999 - 28 + 1)); [lia|].
    destruct (Z.ltb_spec e (Z.max (Z.of_nat (ndigits c) + e - 28) (-999999 - 28 + 1)));
      [lia|reflexivity].
Qed.

Lemma of_float_one : of_float 1.0 = Finite false 1 0.
Proof. reflexivity. Qed.

(** The float [0.8] is not the rational 4/5, and [Decimal(0.8)] is the
    float's exact value. *)
Lemma of_float_discount :
  of_float 0.8 =
  Finite false 8000000000000000444089209850062616169452667236328125 (-52).
Proof. vm_compute. reflexivity. Qed.

(** Multiplying a stored price by [Decimal(1.0)] gives the price back. *)
Lemma mul_one (d : Decimal) :
  in_field 15 2 d = true -> mul d (of_float 1.0) = Ok d.
Proof.
  rewrite of_float_one. destruct d as [s c e| |]; simpl; try discriminate.
  intros H. apply andb_prop in H as [H He0]. apply andb_prop in H as [Hc He].
  apply Z.ltb_lt in Hc. apply Z.leb_le in He, He0.
  rewrite xorb_false_r, N.mul_1_r, Z.add_0_r.
  apply fix_exact.
  - apply N2Z.inj_lt. rewrite N2Z.inj_pow. simpl Z.of_N.
    eapply Z.lt_trans; [exact Hc|]. reflexivity.
  - unfold Etiny, Etop, Emin, Emax, prec. lia.
Qed.

End DecFacts.

(* ===================================================================== *)
(** * Running the method *)
(* ===================================================================== *)

Section Runs.

Context {geo : Geodesy}.

(** A zip lookup issues one query, and succeeds exactly when the zip
    resolves. *)
Lemma zip_coordinate_run (db : Database) (z : string) (log : list query) :
  zip_coordinate db z log =
  (match resolve db z with
   | Some co => Ok co
   | None => Raise IndexError
   end, log ++ [SelectZipcode z]).
Proof.
  unfold zip_coordinate, resolve, Zipcode_filter, Py.bind, Py.tell, Py.ret.
  destruct (zip_rows z (Zipcode_objects db)); reflexivity.
Qed.

(** One execution of the loop body. *)
Lemma scan_body_run (db : Database) co (c : Competitor) (rate : float) log :
  scan_body db co c rate log =
  (match resolve db (competitor_zip c) with
   | Some cz =>
       match vincenty_miles co cz with
       | Some d => Ok (Break, if (d <? 5)%float then 0.8%float else rate)
       | None => Raise ValueError
       end
   | None => Raise IndexError
   end, log ++ [SelectZipcode (competitor_zip c)]).
Proof.
  unfold scan_body, Py.bind, str. rewrite zip_coordinate_run.
  destruct (resolve db (competitor_zip c)) as [cz|]; [|reflexivity].
  unfold vincenty. destruct (vincenty_miles co cz); reflexivity.
Qed.

(** The loop over a non-empty competitor list is one execution of its
    body, on the first competitor. *)
Lemma scan_run (db : Database) co (c : Competitor) cs (rate : float) log :
  for_each (scan_body db co) (c :: cs) rate log =
  (match resolve db (competitor_zip c) with
   | Some cz =>
       match vincenty_miles co cz with
       | Some d => Ok (if (d <? 5)%float then 0.8%float else rate)
       | None => Raise ValueError
       end
   | None => Raise IndexError
   end, log ++ [SelectZipcode (competitor_zip c)]).
Proof.
  cbn [for_each]. unfold Py.bind. rewrite scan_body_run.
  destruct (resolve db (competitor_zip c)) as [cz|]; [|reflexivity].
  destruct (vincenty_miles co cz); reflexivity.
Qed.

Lemma truthy_nonempty (z : string) : z <> "" -> truthy z = true.
Proof. destruct z; [congruence|reflexivity]. Qed.

(** Without a zip parameter, or with an empty one, the rate is 1.0 and
    nothing is read. *)
Lemma adjusted_rate_no_zip (db : Database) (request : HttpRequest) log :
  GET request !! "zip" = None \/ GET request !! "zip" = Some "" ->
  adjusted_rate db request log = (Ok 1.0%float, log).
Proof.
  intros [H|H]; unfold adjusted_rate, GET_get; rewrite H; reflexivity.
Qed.

(** With a zip parameter: the shopper's lookup, then the scan. *)
Lemma adjusted_rate_zip (db : Database) (request : HttpRequest) z log :
  GET request !! "zip" = Some z -> z <> "" ->
  adjusted_rate db request log =
  match resolve db z with
  | None => (Raise IndexError, log ++ [SelectZipcode z])
  | Some co =>
      for_each (scan_body db co) (Competitor_objects db) 1.0%float
        ((log ++ [SelectZipcode z]) ++ [SelectCompetitors])
  end.
Proof.
  intros H Hz. unfold adjusted_rate, GET_get, GET_getitem. rewrite H.
  rewrite (truthy_nonempty z Hz).
  unfold Py.bind at 1. unfold Py.ret at 1.
  unfold Py.bind at 1. rewrite zip_coordinate_run.
  destruct (resolve db z); reflexivity.
Qed.

(** The method only sees the zip table through [resolve]. *)
Lemma adjusted_price_ext (db db' : Database) (self : Product)
    (request : HttpRequest) log :
  (forall z, resolve db z = resolve db' z) ->
  Competitor_objects db = Competitor_objects db' ->
  adjusted_price db self request log = adjusted_price db' self request log.
Proof.
  intros Hres Hcs. unfold adjusted_price, Py.bind.
  enough (adjusted_rate db request log = adjusted_rate db' request log) as ->
    by reflexivity.
  destruct (GET request !! "zip") as [z|] eqn:Hget.
  - destruct (decide (z = "")) as [->|Hz].
    + rewrite !adjusted_rate_no_zip by (right; assumption). reflexivity.
    + rewrite !(adjusted_rate_zip _ _ z) by assumption.
      rewrite <- Hres, <- Hcs. destruct (resolve db z) as [co|]; [|reflexivity].
      destruct (Competitor_objects db) as [|c cs]; [reflexivity|].
      rewrite !scan_run, <- Hres. reflexivity.
  - rewrite !adjusted_rate_no_zip by (left; assumption). reflexivity.
Qed.

(** Of the rows with one zip value, the first is the one a lookup
    returns. *)
Lemma resolve_first_row (cs : list Competitor) (pre post : list Zipcode)
    (r : Zipcode) :
  (forall x, x ∈ pre -> zip x <> zip r) ->
  resolve {| Zipcode_objects := pre ++ r :: post; Competitor_objects := cs |}
    (zip r) = Some (coordinate r).
Proof.
  intros Hpre. unfold resolve, zip_rows. simpl.
  rewrite filter_app, filter_cons_True by reflexivity.
  replace (filter (fun x => zip x = zip r) pre) with (@nil Zipcode);
    [reflexivity|].
  symmetry. induction pre as [|x pre IH]; [reflexivity|].
  rewrite filter_cons_False by (apply Hpre; left).
  apply IH. intros y Hy. apply Hpre. right. exact Hy.
Qed.

(** A row that repeats the zip of an earlier row is never the first of
    any lookup. *)
Lemma resolve_later_duplicate (cs cs' : list Competitor)
    (pre post1 post2 : list Zipcode) (r r' : Zipcode) (z : string) :
  zip r' = zip r ->
  resolve {| Zipcode_objects := pre ++ r :: post1 ++ r' :: post2;
             Competitor_objects := cs |} z =
  resolve {| Zipcode_objects := pre ++ r :: post1 ++ post2;
             Competitor_objects := cs' |} z.
Proof.
  intros Hdup. unfold resolve, zip_rows. simpl. f_equal.
  rewrite !filter_app, !filter_cons, !filter_app, filter_cons, Hdup.
  destruct (decide (zip r = z)) as [Hr|Hr]; [|reflexivity].
  destruct (filter (fun x => zip x = z) pre); reflexivity.
Qed.

(** The whole method when there is a shopper zip and a competitor. *)
Lemma adjusted_price_first (db : Database) (self : Product)
    (request : HttpRequest) z co c cs log :
  GET request !! "zip" = Some z -> z <> "" ->
  resolve db z = Some co ->
  Competitor_objects db = c :: cs ->
  adjusted_price db self request log =
  (match resolve db (competitor_zip c) with
   | Some cz =>
       match vincenty_miles co cz with
       | Some d =>
           Dec.mul (baseprice self)
             (Dec.of_float (if (d <? 5)%float then 0.8%float else 1.0%float))
       | None => Raise ValueError
       end
   | None => Raise IndexError
   end,
   ((log ++ [SelectZipcode z]) ++ [SelectCompetitors])
     ++ [SelectZipcode (competitor_zip c)]).
Proof.
  intros Hget Hz Hco Hcs. unfold adjusted_price, Py.bind.
  rewrite (adjusted_rate_zip db request z log Hget Hz), Hco, Hcs, scan_run.
  destruct (resolve db (competitor_zip c)) as [cz|]; [|reflexivity].
  destruct (vincenty_miles co cz); reflexivity.
Qed.

(** The whole method when there is a shopper zip and no competitor. *)
Lemma adjusted_price_nobody (db : Database) (self : Product)
    (request : HttpRequest) z co log :
  GET request !! "zip" = Some z -> z <> "" ->
  resolve db z = Some co ->
  Competitor_objects db = [] ->
  adjusted_price db self request log =
  (Dec.mul (baseprice self) (Dec.of_float 1.0),
   (log ++ [SelectZipcode z]) ++ [SelectCompetitors]).
Proof.
  intros Hget Hz Hco Hcs. unfold adjusted_price, Py.bind.
  rewrite (adjusted_rate_zip db request z log Hget Hz), Hco, Hcs.
  reflexivity.
Qed.

(** The whole method when the shopper zip is unknown. *)
Lemma adjusted_price_unknown (db : Database) (self : Product)
    (request : HttpRequest) z log :
  GET request !! "zip" = Some z -> z <> "" ->
  resolve db z = None ->
  adjusted_price db self request log =
  (Raise IndexError, log ++ [SelectZipcode z]).
Proof.
  intros Hget Hz Hco. unfold adjusted_price, Py.bind.
  rewrite (adjusted_rate_zip db request z log Hget Hz), Hco. reflexivity.
Qed.

End Runs.

(* ===================================================================== *)
(** * The pricing rule *)
(* ===================================================================== *)

Section Pricing.

Context {geo : Geodesy}.

(** C1 (the scan over the competitors). The scan does not run on to the
    first competitor under 5 miles: when the first competitor in
    iteration order resolves and is not under 5 miles, the loop is left
    right after it. The price is the base price and the only reads are
    the shopper's zip, the competitor table and the first competitor's
    zip, whatever competitors follow. *)
Theorem C1_scan_ends_at_first_competitor (db : Database) (self : Product)
    (request : HttpRequest) (z : string) (co cz : coordinate_t)
    (c : Competitor) (cs : list Competitor) (miles : float) :
  baseprice_in_field self ->
  GET request !! "zip" = Some z -> z <> "" ->
  resolve db z = Some co ->
  Competitor_objects db = c :: cs ->
  resolve db (competitor_zip c) = Some cz ->
  vincenty_miles co cz = Some miles ->
  (miles <? 5)%float = false ->
  Py.outcome (adjusted_price db self request) = Ok (base_price self)
  /\ Py.queries (adjusted_price db self request) =
     [SelectZipcode z; SelectCompetitors; SelectZipcode (competitor_zip c)].
Proof.
  intros Hp Hget Hz Hco Hcs Hcz Hd Hfar. unfold Py.outcome, Py.queries.
  rewrite (adjusted_price_first db self request z co c cs [] Hget Hz Hco Hcs).
  rewrite Hcz, Hd, Hfar. simpl. split; [|reflexivity].
  apply DecFacts.mul_one, Hp.
Qed.

(** C3 (no shopper zip). When the [zip] parameter is absent or empty the
    method returns the base price as it is, and reads neither the
    competitor table nor the zip table. *)
Theorem C3_no_zip_base_price (db : Database) (self : Product)
    (request : HttpRequest) :
  baseprice_in_field self ->
  GET request !! "zip" = None \/ GET request !! "zip" = Some "" ->
  Py.outcome (adjusted_price db self request) = Ok (base_price self)
  /\ Py.queries (adjusted_price db self request) = [].
Proof.
  intros Hp Hget. unfold Py.outcome, Py.queries, adjusted_price, Py.bind.
  rewrite (adjusted_rate_no_zip db request [] Hget). simpl.
  split; [|reflexivity]. apply DecFacts.mul_one, Hp.
Qed.


(** C5 (the boundary is strict). A competitor exactly 5.0 miles from the
    shopper does not set the 0.8 rate: the loop body run on it leaves
    the rate it was given, and when it is the competitor the scan looks
    at, the method returns the base price. *)
Theorem C5_exactly_five_miles_no_discount (db : Database) (self : Product)
    (request : HttpRequest) (z : string) (co cz : coordinate_t)
    (c : Competitor) :
  baseprice_in_field self ->
  GET request !! "zip" = Some z -> z <> "" ->
  resolve db z = Some co ->
  resolve db (competitor_zip c) = Some cz ->
  vincenty_miles co cz = Some 5%float ->
  (forall rate log, fst (scan_body db co c rate log) = Ok (Break, rate))
  /\ (forall cs, Competitor_objects db = c :: cs ->
        Py.outcome (adjusted_price db self request) = Ok (base_price self)).
Proof.
  intros Hp Hget Hz Hco Hcz Hfive. split.
  - intros rate log. rewrite scan_body_run, Hcz, Hfive. reflexivity.
  - intros cs Hcs. unfold Py.outcome.
    rewrite (adjusted_price_first db self request z co c cs [] Hget Hz Hco Hcs).
    rewrite Hcz, Hfive. simpl. apply DecFacts.mul_one, Hp.
Qed.

(** C7, amended (a competitor zip with no mapping). Resolving a
    competitor whose zip has no row in the zip table raises the lookup
    error: the loop body run on it raises [IndexError], and when it is
    the competitor the scan looks at, the whole method raises
    [IndexError] and returns no price. *)
Theorem C7_unmapped_competitor_zip_aborts (db : Database) (self : Product)
    (request : HttpRequest) (z : string) (co : coordinate_t)
    (c : Competitor) :
  GET request !! "zip" = Some z -> z <> "" ->
  resolve db z = Some co ->
  resolve db (competitor_zip c) = None ->
  (forall rate log, fst (scan_body db co c rate log) = Raise IndexError)
  /\ (forall cs, Competitor_objects db = c :: cs ->
        Py.outcome (adjusted_price db self request) = Raise IndexError).
Proof.
  intros Hget Hz Hco Hcz. split.
  - intros rate log. rewrite scan_body_run, Hcz. reflexivity.
  - intros cs Hcs. unfold Py.outcome.
    rewrite (adjusted_price_first db self request z co c cs [] Hget Hz Hco Hcs).
    rewrite Hcz. reflexivity.
Qed.

(** C8 (unknown shopper zip). With a non-empty shopper zip that has no
    row in the zip table the method fails with the lookup error
    ([IndexError], raised by the first-row access on the empty
    queryset) right after that lookup, and returns no price. *)
Theorem C8_unknown_shopper_zip_fails (db : Database) (self : Product)
    (request : HttpRequest) (z : string) :
  GET request !! "zip" = Some z -> z <> "" ->
  resolve db z = None ->
  Py.outcome (adjusted_price db self request) = Raise IndexError
  /\ (forall price, Py.outcome (adjusted_price db self request) <> Ok price)
  /\ Py.queries (adjusted_price db self request) = [SelectZipcode z].
Proof.
  intros Hget Hz Hco. unfold Py.outcome, Py.queries.
  rewrite (adjusted_price_unknown db self request z [] Hget Hz Hco). simpl.
  repeat split. intros price H. discriminate H.
Qed.

(** C9 (duplicate zip rows). Every zip lookup of the method returns the
    coordinates of the first row with that zip, whatever rows follow:
    with [rs] the first row for the shopper's zip and [rc] the first row
    for the first competitor's zip, the two lookups give the coordinates
    of [rs] and of [rc], and the price is computed from the distance
    between these two. A row repeating the zip of an earlier row changes
    no lookup, and with or without it the method gives the same outcome
    after the same reads. *)
Theorem C9_first_matching_row_is_used
    (rows pre_s post_s pre_c post_c : list Zipcode) (rs rc : Zipcode)
    (c : Competitor) (cs : list Competitor)
    (self : Product) (request : HttpRequest) :
  rows = pre_s ++ rs :: post_s ->
  (forall x, x ∈ pre_s -> zip x <> zip rs) ->
  rows = pre_c ++ rc :: post_c ->
  (forall x, x ∈ pre_c -> zip x <> zip rc) ->
  GET request !! "zip" = Some (zip rs) -> zip rs <> "" ->
  competitor_zip c = zip rc ->
  let db := {| Zipcode_objects := rows; Competitor_objects := c :: cs |} in
  (forall log,
     zip_coordinate db (zip rs) log =
     (Ok (coordinate rs), log ++ [SelectZipcode (zip rs)]))
  /\ (forall log,
        zip_coordinate db (zip rc) log =
        (Ok (coordinate rc), log ++ [SelectZipcode (zip rc)]))
  /\ (forall log,
        adjusted_price db self request log =
        (match vincenty_miles (coordinate rs) (coordinate rc) with
         | Some miles =>
             Dec.mul (baseprice self)
               (Dec.of_float
                  (if (miles <? 5)%float then 0.8%float else 1.0%float))
         | None => Raise ValueError
         end,
         ((log ++ [SelectZipcode (zip rs)]) ++ [SelectCompetitors])
           ++ [SelectZipcode (zip rc)]))
  /\ (forall (pre post1 post2 : list Zipcode) (r r' : Zipcode)
             (cs0 : list Competitor) (p : Product) (req : HttpRequest)
             (z : string) (log : list query),
        zip r' = zip r ->
        let db1 := {| Zipcode_objects := pre ++ r :: post1 ++ r' :: post2;
                      Competitor_objects := cs0 |} in
        let db2 := {| Zipcode_objects := pre ++ r :: post1 ++ post2;
                      Competitor_objects := cs0 |} in
        zip_coordinate db1 z log = zip_coordinate db2 z log
        /\ adjusted_price db1 p req log = adjusted_price db2 p req log).
Proof.
  intros Hs Hpre_s Hc Hpre_c Hget Hz Hzip db.
  assert (Hrs : resolve db (zip rs) = Some (coordinate rs)).
  { unfold db. rewrite Hs. apply resolve_first_row, Hpre_s. }
  assert (Hrc : resolve db (zip rc) = Some (coordinate rc)).
  { unfold db. rewrite Hc. apply resolve_first_row, Hpre_c. }
  split; [|split; [|split]].
  - intros log. rewrite zip_coordinate_run, Hrs. reflexivity.
  - intros log. rewrite zip_coordinate_run, Hrc. reflexivity.
  - intros log.
    rewrite (adjusted_price_first db self request (zip rs) (coordinate rs)
               c cs log Hget Hz Hrs eq_refl).
    rewrite Hzip, Hrc. reflexivity.
  - intros pre post1 post2 r r' cs0 p req z log Hdup db1 db2. split.
    + rewrite !zip_coordinate_run. unfold db1, db2.
      rewrite (resolve_later_duplicate cs0 cs0 pre post1 post2 r r' z Hdup).
      reflexivity.
    + apply adjusted_price_ext; [|reflexivity].
      intros x. apply resolve_later_duplicate, Hdup.
Qed.

(** C10 (the loop body runs at most once). The loop over a non-empty
    competitor list is a single run of its body on the first
    competitor, so two competitor lists with the same first element
    give the same outcome after the same reads, whatever follows. *)
Theorem C10_only_first_competitor_counts (zs : list Zipcode) (c : Competitor)
    (cs1 cs2 : list Competitor) (self : Product) (request : HttpRequest)
    (log : list query) :
  (forall db co rate l,
     for_each (scan_body db co) (c :: cs1) rate l =
     Py.bind (scan_body db co c rate) (fun r => Py.ret (snd r)) l)
  /\ adjusted_price {| Zipcode_objects := zs; Competitor_objects := c :: cs1 |}
       self request log =
     adjusted_price {| Zipcode_objects := zs; Competitor_objects := c :: cs2 |}
       self request log.
Proof.
  split.
  - intros db co rate l. cbn [for_each]. unfold Py.bind.
    rewrite scan_body_run.
    destruct (resolve db (competitor_zip c)) as [cz|]; [|reflexivity].
    destruct (vincenty_miles co cz); reflexivity.
  - destruct (GET request !! "zip") as [z|] eqn:Hget.
    + destruct (decide (z = "")) as [->|Hz].
      * unfold adjusted_price, Py.bind.
        rewrite !adjusted_rate_no_zip by (right; assumption). reflexivity.
      * set (db1 := {| Zipcode_objects := zs; Competitor_objects := c :: cs1 |}).
        set (db2 := {| Zipcode_objects := zs; Competitor_objects := c :: cs2 |}).
        assert (Hres : forall x, resolve db1 x = resolve db2 x) by reflexivity.
        destruct (resolve db1 z) as [co|] eqn:Hco.
        -- rewrite (adjusted_price_first db1 self request z co c cs1 log Hget Hz Hco eq_refl).
           rewrite Hres in Hco.
           rewrite (adjusted_price_first db2 self request z co c cs2 log Hget Hz Hco eq_refl).
           rewrite Hres. reflexivity.
        -- rewrite (adjusted_price_unknown db1 self request z log Hget Hz Hco).
           rewrite Hres in Hco.
           rewrite (adjusted_price_unknown db2 self request z log Hget Hz Hco).
           reflexivity.
    + unfold adjusted_price, Py.bind.
      rewrite !adjusted_rate_no_zip by (left; assumption). reflexivity.
Qed.

End Pricing.

(* ===================================================================== *)
(** * The rule on the sample store *)
(* ===================================================================== *)

(** The shopper is in zip 94103 (San Francisco); [near_shop] is 1.38
    miles away under [degree_miles], [far_shop] is in New York,
    [lost_shop] has a zip the table does not know. *)

(** C1 on the competitors [far_shop; near_shop]: [near_shop] is under 5
    miles, and the scan has ended before it. *)
Lemma C1_far_then_near :
  (exists miles,
     @vincenty_miles degree_miles (coordinate san_francisco)
       (coordinate civic_center) = Some miles
     /\ (miles <? 5)%float = true)
  /\ Py.outcome (adjusted_price (geo := degree_miles)
       (store [far_shop; near_shop]) widget (from_zip "94103"))
     = Ok (base_price widget)
  /\ Py.queries (adjusted_price (geo := degree_miles)
       (store [far_shop; near_shop]) widget (from_zip "94103"))
     = [SelectZipcode "94103"; SelectCompetitors; SelectZipcode "10007"].
Proof.
  split; [eexists; split; reflexivity|].
  eapply (C1_scan_ends_at_first_competitor (geo := degree_miles)
            (store [far_shop; near_shop]) widget (from_zip "94103") "94103"
            (coordinate san_francisco) (coordinate new_york)
            far_shop [near_shop]);
    try reflexivity.
  discriminate.
Defined.

(** C2 (a competitor under 5 miles). With the competitors
    [far_shop; near_shop] a competitor with a resolvable zip lies under 5
    miles from the shopper, and the method returns the base price 100.00,
    which is not 0.8 times the base price. *)
Theorem C2_near_competitor_after_far_one :
  let db := store [far_shop; near_shop] in
  let request := from_zip "94103" in
  resolve db "94103" = Some (coordinate san_francisco)
  /\ near_shop ∈ Competitor_objects db
  /\ resolve db (competitor_zip near_shop) = Some (coordinate civic_center)
  /\ (exists miles,
        @vincenty_miles degree_miles (coordinate san_francisco)
          (coordinate civic_center) = Some miles
        /\ (miles <? 5)%float = true)
  /\ Py.outcome (adjusted_price (geo := degree_miles) db widget request)
     = Ok (Finite false 10000 (-2))
  /\ Dec.eqb (Finite false 10000 (-2)) (Finite false 80 0) = false.
Proof.
  split; [reflexivity|]. split.
  { apply list_elem_of_In. simpl. right. left. reflexivity. }
  split; [reflexivity|]. split; [eexists; split; reflexivity|].
  split; reflexivity.
Qed.

(** C3 on a request without parameters. *)
Lemma C3_no_zip_parameter :
  GET no_zip !! "zip" = None
  /\ Py.outcome (adjusted_price (geo := degree_miles)
       (store [near_shop]) widget no_zip) = Ok (base_price widget)
  /\ Py.queries (adjusted_price (geo := degree_miles)
       (store [near_shop]) widget no_zip) = [].
Proof.
  split; [reflexivity|].
  apply (C3_no_zip_base_price (geo := degree_miles)
           (store [near_shop]) widget no_zip); [reflexivity|].
  left. reflexivity.
Defined.



(** C5 with a shopper in zip 00001 and [edge_shop], exactly 5.0 miles
    away, as the first competitor. *)
Lemma C5_edge_shop_at_five_miles :
  @vincenty_miles degree_miles (coordinate origin) (coordinate five_out)
  = Some 5%float
  /\ (forall rate log,
        fst (scan_body (geo := degree_miles) (store [edge_shop; near_shop])
               (coordinate origin) edge_shop rate log) = Ok (Break, rate))
  /\ (forall cs, Competitor_objects (store [edge_shop; near_shop]) = edge_shop :: cs ->
        Py.outcome (adjusted_price (geo := degree_miles)
          (store [edge_shop; near_shop]) widget (from_zip "00001"))
        = Ok (base_price widget)).
Proof.
  split; [reflexivity|].
  apply (C5_exactly_five_miles_no_discount (geo := degree_miles)
           (store [edge_shop; near_shop]) widget (from_zip "00001") "00001"
           (coordinate origin) (coordinate five_out) edge_shop);
    try reflexivity.
  discriminate.
Defined.

(** C6 (exact decimal result). [Decimal(0.8)] is the exact value of the
    binary float nearest to 0.8, not the decimal 0.8; with the base price
    100.00 and [near_shop] the method returns
    80.00000000000000444089209850, while the exact decimal product of
    100.00 and 0.8 is 80.000, a different number. *)
Theorem C6_discounted_price_carries_float_error :
  Dec.of_float 0.8 =
    Finite false 8000000000000000444089209850062616169452667236328125 (-52)
  /\ Py.outcome (adjusted_price (geo := degree_miles)
       (store [near_shop]) widget (from_zip "94103"))
     = Ok (Finite false 8000000000000000444089209850 (-26))
  /\ Dec.mul (base_price widget) (Finite false 8 (-1))
     = Ok (Finite false 80000 (-3))
  /\ Dec.eqb (Finite false 8000000000000000444089209850 (-26))
       (Finite false 80000 (-3)) = false.
Proof. repeat split; vm_compute; reflexivity. Qed.

(** C7 as first stated fails on the competitors [lost_shop; near_shop]:
    [lost_shop]'s zip has no mapping, the method raises [IndexError] at
    its lookup, no price is produced and [near_shop] is never looked
    at. *)
Lemma C7_unmapped_competitor_not_skipped :
  let db := store [lost_shop; near_shop] in
  let request := from_zip "94103" in
  resolve db "94103" = Some (coordinate san_francisco)
  /\ resolve db (competitor_zip lost_shop) = None
  /\ Py.outcome (adjusted_price (geo := degree_miles) db widget request)
     = Raise IndexError
  /\ (forall price,
        Py.outcome (adjusted_price (geo := degree_miles) db widget request)
        <> Ok price)
  /\ Py.queries (adjusted_price (geo := degree_miles) db widget request)
     = [SelectZipcode "94103"; SelectCompetitors; SelectZipcode "00000"].
Proof. repeat split; try reflexivity. intros price H. discriminate H. Qed.

(** C7, amended, with [lost_shop] as the first competitor. *)
Lemma C7_lost_shop_first :
  resolve (store [lost_shop; near_shop]) (competitor_zip lost_shop) = None
  /\ (forall rate log,
        fst (scan_body (geo := degree_miles) (store [lost_shop; near_shop])
               (coordinate san_francisco) lost_shop rate log)
        = Raise IndexError)
  /\ (forall cs, Competitor_objects (store [lost_shop; near_shop]) = lost_shop :: cs ->
        Py.outcome (adjusted_price (geo := degree_miles)
          (store [lost_shop; near_shop]) widget (from_zip "94103"))
        = Raise IndexError).
Proof.
  split; [reflexivity|].
  apply (C7_unmapped_competitor_zip_aborts (geo := degree_miles)
           (store [lost_shop; near_shop]) widget (from_zip "94103") "94103"
           (coordinate san_francisco) lost_shop);
    try reflexivity.
  discriminate.
Defined.

(** C8 with the shopper zip 99999, which the table does not have. *)
Lemma C8_zip_99999 :
  resolve (store [near_shop]) "99999" = None
  /\ Py.outcome (adjusted_price (geo := degree_miles)
       (store [near_shop]) widget (from_zip "99999")) = Raise IndexError
  /\ (forall price,
        Py.outcome (adjusted_price (geo := degree_miles)
          (store [near_shop]) widget (from_zip "99999")) <> Ok price)
  /\ Py.queries (adjusted_price (geo := degree_miles)
       (store [near_shop]) widget (from_zip "99999")) = [SelectZipcode "99999"].
Proof.
  split; [reflexivity|].
  apply (C8_unknown_shopper_zip_fails (geo := degree_miles)
           (store [near_shop]) widget (from_zip "99999") "99999");
    try reflexivity.
  discriminate.
Defined.

(** C9 with a second row for zip 94102 that carries New York's
    coordinates, a shopper in 94103 and [near_shop] (zip 94102) first. *)
Lemma C9_second_row_for_94102 :
  let rows := [san_francisco; civic_center; new_york; civic_center_dup] in
  let db := {| Zipcode_objects := rows;
               Competitor_objects := near_shop :: [far_shop] |} in
  competitor_zip near_shop = zip civic_center
  /\ (forall log,
        zip_coordinate db (zip san_francisco) log =
        (Ok (coordinate san_francisco),
         log ++ [SelectZipcode (zip san_francisco)]))
  /\ (forall log,
        zip_coordinate db (zip civic_center) log =
        (Ok (coordinate civic_center),
         log ++ [SelectZipcode (zip civic_center)]))
  /\ (forall log,
        adjusted_price (geo := degree_miles) db widget (from_zip "94103") log =
        (match @vincenty_miles degree_miles (coordinate san_francisco)
                 (coordinate civic_center) with
         | Some miles =>
             Dec.mul (baseprice widget)
               (Dec.of_float
                  (if (miles <? 5)%float then 0.8%float else 1.0%float))
         | None => Raise ValueError
         end,
         ((log ++ [SelectZipcode (zip san_francisco)]) ++ [SelectCompetitors])
           ++ [SelectZipcode (zip civic_center)]))
  /\ (forall (pre post1 post2 : list Zipcode) (r r' : Zipcode)
             (cs0 : list Competitor) (p : Product) (req : HttpRequest)
             (z : string) (log : list query),
        zip r' = zip r ->
        let db1 := {| Zipcode_objects := pre ++ r :: post1 ++ r' :: post2;
                      Competitor_objects := cs0 |} in
        let db2 := {| Zipcode_objects := pre ++ r :: post1 ++ post2;
                      Competitor_objects := cs0 |} in
        zip_coordinate db1 z log = zip_coordinate db2 z log
        /\ adjusted_price (geo := degree_miles) db1 p req log
           = adjusted_price (geo := degree_miles) db2 p req log).
Proof.
  intros rows db. split; [reflexivity|].
  apply (C9_first_matching_row_is_used (geo := degree_miles) rows
           [] [civic_center; new_york; civic_center_dup]
           [san_francisco] [new_york; civic_center_dup]
           san_francisco civic_center near_shop [far_shop]
           widget (from_zip "94103")); try reflexivity.
  - intros x Hx. apply list_elem_of_In in Hx. destruct Hx.
  - intros x Hx. apply list_elem_of_In in Hx. simpl in Hx.
    destruct Hx as [<-|[]]. discriminate.
  - discriminate.
Defined.

(* ===================================================================== *)
(** * Rounding to the context's precision *)
(* ===================================================================== *)

Module DecRounding.

Import Dec.

Lemma ndigits_le_iff (k : nat) (n : N) :
  (1 <= k)%nat -> (ndigits n <= k)%nat <-> (n < 10 ^ N.of_nat k)%N.
Proof.
  intros Hk. split; [|apply DecFacts.ndigits_le; exact Hk].
  intros Hd. destruct (N.eq_dec n 0%N) as [->|Hn].
  - apply N.neq_0_lt_0, N.pow_nonzero. discriminate.
  - destruct (DecFacts.ndigits_spec n) as [_ Hhi]; [lia|].
    eapply N.lt_le_trans; [exact Hhi|].
    apply N.pow_le_mono_r; [discriminate|lia].
Qed.

(** Rounding half-even moves a number by at most half a unit of the last
    kept digit. *)
Lemma round_half_even_near (c k : N) :
  (c / 10 ^ k <= round_half_even c k <= c / 10 ^ k + 1
   /\ 2 * c <= 2 * (round_half_even c k * 10 ^ k) + 10 ^ k
   /\ 2 * (round_half_even c k * 10 ^ k) <= 2 * c + 10 ^ k)%N.
Proof.
  unfold round_half_even.
  assert (HU : (10 ^ k <> 0)%N) by (apply N.pow_nonzero; discriminate).
  pose proof (N.Div0.div_mod c (10 ^ k)) as Hdm.
  pose proof (N.mod_upper_bound c (10 ^ k) HU) as Hr.
  generalize dependent (c / 10 ^ k)%N. generalize dependent (c mod 10 ^ k)%N.
  generalize dependent (10 ^ k)%N. intros U HU r Hr q Hdm.
  destruct (N.compare_spec (2 * r) U); [destruct (N.odd q)|..]; nia.
Qed.

(** A coefficient of more than 28 digits is rounded to 28 digits, at most
    half a unit of the last kept digit away. *)
Lemma fix_rounds (s : bool) (P : N) (e : Z) :
  (28 < ndigits P)%nat ->
  (Etiny <= Z.of_nat (ndigits P) + e - prec < Etop)%Z ->
  exists (R : N) (j : nat),
    fix_ (Finite s P e) = Ok (Finite s R (e + Z.of_nat j))
    /\ (ndigits P - 28 <= j <= ndigits P - 27)%nat
    /\ (10 ^ 27 <= R < 10 ^ 28)%N
    /\ (2 * P <= 2 * (R * 10 ^ N.of_nat j) + 10 ^ N.of_nat (ndigits P - 28))%N
    /\ (2 * (R * 10 ^ N.of_nat j) <= 2 * P + 10 ^ N.of_nat (ndigits P - 28))%N.
Proof.
  intros Hn He.
  assert (HP : (0 < P)%N).
  { destruct (N.eq_dec P 0%N) as [->|]; [|lia]. vm_compute in Hn. lia. }
  destruct (DecFacts.ndigits_spec P HP) as [Hlo Hhi].
  set (n := ndigits P) in *. set (k := (n - 28)%nat).
  assert (Hlo' : (10 ^ 27 * 10 ^ N.of_nat k <= P)%N).
  { rewrite <- N.pow_add_r. replace (27 + N.of_nat k)%N with (N.of_nat (n - 1)) by lia.
    exact Hlo. }
  assert (Hhi' : (P < 10 ^ 28 * 10 ^ N.of_nat k)%N).
  { rewrite <- N.pow_add_r. replace (28 + N.of_nat k)%N with (N.of_nat n) by lia.
    exact Hhi. }
  destruct (round_half_even_near P (N.of_nat k)) as [[Hq1 Hq2] [Hv1 Hv2]].
  assert (HU : (10 ^ N.of_nat k <> 0)%N) by (apply N.pow_nonzero; discriminate).
  pose proof (N.Div0.div_mod P (10 ^ N.of_nat k)) as Hdm.
  pose proof (N.mod_upper_bound P (10 ^ N.of_nat k) HU) as Hr.
  assert (Hkept : (10 ^ 27 <= P / 10 ^ N.of_nat k < 10 ^ 28)%N).
  { generalize dependent (P / 10 ^ N.of_nat k)%N.
    generalize dependent (P mod 10 ^ N.of_nat k)%N.
    generalize dependent (10 ^ N.of_nat k)%N. intros; nia. }
  unfold fix_, Etiny, Etop, Emin, Emax, prec in *. fold n.
  destruct (N.eqb_spec P 0%N) as [->|_]; [lia|].
  destruct (Z.gtb_spec (Z.of_nat n + e - 28) (999999 - 28 + 1)) as [Hov|_]; [clear - He Hov; lia|].
  rewrite Z.max_l by (clear - He; lia).
  destruct (Z.ltb_spec e (Z.of_nat n + e - 28)) as [_|Hx]; [|clear - Hn Hx; lia].
  replace (Z.to_N (Z.of_nat n + e - 28 - e)) with (N.of_nat k) by (clear - Hn; lia).
  set (c' := round_half_even P (N.of_nat k)) in *.
  destruct (Z.gtb_spec (Z.of_nat (ndigits c')) 28) as [Hbig|Hsmall].
  - (* the increment carried into a 29th digit *)
    assert (Hc' : (c' = 10 ^ 28)%N).
    { assert (~ (ndigits c' <= 28)%nat) as Hnot by lia.
      rewrite (ndigits_le_iff 28 c') in Hnot by lia.
      change (10 ^ N.of_nat 28)%N with (10 ^ 28)%N in Hnot. lia. }
    destruct (Z.gtb_spec (Z.of_nat n + e - 28 + 1) (999999 - 28 + 1)) as [Hov|_];
      [clear - He Hov; lia|].
    exists (c' / 10)%N, (S k). repeat split.
    + do 2 f_equal. lia.
    + lia.
    + lia.
    + rewrite Hc'. vm_compute. discriminate.
    + rewrite Hc'. reflexivity.
    + replace (c' / 10 * 10 ^ N.of_nat (S k))%N with (c' * 10 ^ N.of_nat k)%N; [exact Hv1|].
      rewrite Hc', Nat2N.inj_succ, N.pow_succ_r'.
      change (10 ^ 28 / 10)%N with (10 ^ 27)%N.
      change (10 ^ 28)%N with (10 ^ 27 * 10)%N. lia.
    + replace (c' / 10 * 10 ^ N.of_nat (S k))%N with (c' * 10 ^ N.of_nat k)%N; [exact Hv2|].
      rewrite Hc', Nat2N.inj_succ, N.pow_succ_r'.
      change (10 ^ 28 / 10)%N with (10 ^ 27)%N.
      change (10 ^ 28)%N with (10 ^ 27 * 10)%N. lia.
  - assert (Hc' : (c' < 10 ^ 28)%N).
    { apply (ndigits_le_iff 28 c'); lia. }
    destruct (Z.gtb_spec (Z.of_nat n + e - 28) (999999 - 28 + 1)) as [Hov|_];
      [clear - He Hov; lia|].
    exists c', k. repeat split; try assumption; try lia.
    do 2 f_equal. lia.
Qed.

End DecRounding.

(* ===================================================================== *)
(** * The discounted price *)
(* ===================================================================== *)

Module DiscountFacts.

Import Dec.

(** A stored non-zero price times [Decimal(0.8)]: the product is rounded
    to 28 digits, and lies strictly between 0.8 times the price and the
    price. Values are compared in units of [10^(e-52)]. *)
Lemma mul_discount (s : bool) (c : N) (e : Z) :
  in_field 15 2 (Finite s c e) = true -> c <> 0%N ->
  exists (R : N) (j : nat),
    mul (Finite s c e) (of_float 0.8) = Ok (Finite s R (e - 52 + Z.of_nat j))
    /\ (24 <= j <= 40)%nat
    /\ (10 ^ 27 <= R < 10 ^ 28)%N
    /\ (8 * c * 10 ^ 51 < R * 10 ^ N.of_nat j)%N
    /\ (R * 10 ^ N.of_nat j < c * 10 ^ 52)%N.
Proof.
  intros Hf Hc. rewrite DecFacts.of_float_discount.
  simpl in Hf. apply andb_prop in Hf as [Hf He0]. apply andb_prop in Hf as [Hc15 He].
  apply Z.ltb_lt in Hc15. apply Z.leb_le in He, He0.
  assert (Hc15' : (c < 10 ^ 15)%N).
  { apply N2Z.inj_lt. rewrite N2Z.inj_pow. exact Hc15. }
  cbn [mul]. rewrite xorb_false_r.
  set (P := (c * 8000000000000000444089209850062616169452667236328125)%N).
  assert (Hn1 : (51 < ndigits P)%nat).
  { assert (~ (ndigits P <= 51)%nat) as Hnot; [|lia].
    rewrite (DecRounding.ndigits_le_iff 51 P) by lia.
    change (10 ^ N.of_nat 51)%N with (10 ^ 51)%N. subst P. lia. }
  assert (Hn2 : (ndigits P <= 67)%nat).
  { apply (DecRounding.ndigits_le_iff 67 P); [lia|].
    change (10 ^ N.of_nat 67)%N with (10 ^ 67)%N. subst P. lia. }
  destruct (DecRounding.fix_rounds s P (e + -52)) as (R & j & Hfix & Hj & HR & Hv1 & Hv2).
  { lia. }
  { unfold Etiny, Etop, Emin, Emax, prec. lia. }
  destruct (DecFacts.ndigits_spec P) as [Hlo _]; [subst P; lia|].
  replace (N.of_nat (ndigits P - 1)) with (27 + N.of_nat (ndigits P - 28))%N in Hlo by lia.
  rewrite N.pow_add_r in Hlo.
  exists R, j. rewrite Hfix. repeat split; lia.
Qed.

(** A stored price of zero times [Decimal(0.8)] is a zero 52 places
    further down. *)
Lemma mul_discount_zero (s : bool) (e : Z) :
  in_field 15 2 (Finite s 0 e) = true ->
  mul (Finite s 0 e) (of_float 0.8) = Ok (Finite s 0 (e - 52)).
Proof.
  intros Hf. rewrite DecFacts.of_float_discount.
  simpl in Hf. apply andb_prop in Hf as [He He0].
  apply Z.leb_le in He, He0.
  cbn [mul fix_]. rewrite xorb_false_r. simpl N.eqb. cbv iota.
  unfold Etiny, Emin, Emax, prec. do 2 f_equal. lia.
Qed.

(** Neither multiplication of the method raises on a stored price. *)
Lemma mul_rate_returns (d : Decimal) (b : bool) :
  in_field 15 2 d = true ->
  exists p, mul d (of_float (if b then 0.8 else 1.0)%float) = Ok p.
Proof.
  intros Hf. destruct b.
  - destruct d as [s c e| |]; try discriminate.
    destruct (N.eq_dec c 0%N) as [->|Hc].
    + eexists. apply mul_discount_zero, Hf.
    + destruct (mul_discount s c e Hf Hc) as (R & j & H & _). eexists. exact H.
  - exists d. apply DecFacts.mul_one, Hf.
Qed.

(** 0.8 times a stored price, in decimal arithmetic, is exact. *)
Lemma mul_exact_discount (s : bool) (c : N) (e : Z) :
  in_field 15 2 (Finite s c e) = true ->
  mul (Finite s c e) (Finite false 8 (-1)) = Ok (Finite s (c * 8) (e - 1)).
Proof.
  intros Hf. simpl in Hf.
  apply andb_prop in Hf as [Hf He0]. apply andb_prop in Hf as [Hc15 He].
  apply Z.ltb_lt in Hc15. apply Z.leb_le in He, He0.
  assert (Hc15' : (c < 10 ^ 15)%N).
  { apply N2Z.inj_lt. rewrite N2Z.inj_pow. exact Hc15. }
  cbn [mul]. rewrite xorb_false_r. apply DecFacts.fix_exact.
  - lia.
  - unfold Etiny, Etop, Emin, Emax, prec. lia.
Qed.

(** The discounted positive price is above the exact 80% and below the
    price. *)
Lemma discount_between (c : N) (e : Z) :
  in_field 15 2 (Finite false c e) = true -> c <> 0%N ->
  exists p,
    mul (Finite false c e) (of_float 0.8) = Ok p
    /\ lt (Finite false (c * 8) (e - 1)) p = Ok true
    /\ lt p (Finite false c e) = Ok true.
Proof.
  intros Hf Hc.
  destruct (mul_discount false c e Hf Hc) as (R & j & Hmul & Hj & _ & Hlo & Hhi).
  exists (Finite false R (e - 52 + Z.of_nat j)). split; [exact Hmul|].
  unfold lt, signed. split; f_equal; apply Z.ltb_lt, N2Z.inj_lt.
  - rewrite Z.min_r by lia.
    replace (Z.to_N (e - 1 - (e - 52 + Z.of_nat j))) with (N.of_nat (51 - j)) by lia.
    replace (Z.to_N (e - 52 + Z.of_nat j - (e - 52 + Z.of_nat j))) with 0%N by lia.
    rewrite N.pow_0_r, N.mul_1_r.
    apply (N.mul_lt_mono_pos_r (10 ^ N.of_nat j)).
    { apply N.neq_0_lt_0, N.pow_nonzero. discriminate. }
    rewrite <- N.mul_assoc, <- N.pow_add_r.
    replace (N.of_nat (51 - j) + N.of_nat j)%N with 51%N by lia. lia.
  - rewrite Z.min_l by lia.
    replace (Z.to_N (e - 52 + Z.of_nat j - (e - 52 + Z.of_nat j))) with 0%N by lia.
    replace (Z.to_N (e - (e - 52 + Z.of_nat j))) with (N.of_nat (52 - j)) by lia.
    rewrite N.pow_0_r, N.mul_1_r.
    apply (N.mul_lt_mono_pos_r (10 ^ N.of_nat j)).
    { apply N.neq_0_lt_0, N.pow_nonzero. discriminate. }
    rewrite <- N.mul_assoc, <- N.pow_add_r.
    replace (N.of_nat (52 - j) + N.of_nat j)%N with 52%N by lia. lia.
Qed.

Lemma lt_irrefl_finite (s : bool) (c : N) (e : Z) :
  lt (Finite s c e) (Finite s c e) = Ok false.
Proof. unfold lt. f_equal. apply Z.ltb_irrefl. Qed.

End DiscountFacts.

(* ===================================================================== *)
(** * Further properties of the models *)
(* ===================================================================== *)

Section StringFacts.

Lemma append_cancel_l (p x y : string) :
  String.append p x = String.append p y -> x = y.
Proof.
  induction p as [|a p IH]; simpl; intros H; [exact H|].
  injection H as H. exact (IH H).
Qed.

Lemma append_assoc3 (a b c : string) :
  String.append (String.append a b) c = String.append a (String.append b c).
Proof.
  induction a as [|x a IH]; [reflexivity|].
  change (String x (String.append (String.append a b) c)
          = String x (String.append a (String.append b c))).
  f_equal. exact IH.
Qed.

Lemma append_nonempty_neq (n s : string) : s <> "" -> String.append n s <> n.
Proof.
  intros Hs. induction n as [|a n IH]; simpl.
  - exact Hs.
  - intros H. injection H as H. exact (IH H).
Qed.

End StringFacts.

Section ZipTable.

(** A lookup in a table followed by more rows: the first table decides
    whenever it has the zip. *)
Lemma resolve_app (cs cs1 cs2 : list Competitor) (rows extra : list Zipcode)
    (z : string) :
  resolve {| Zipcode_objects := rows ++ extra; Competitor_objects := cs |} z =
  match resolve {| Zipcode_objects := rows; Competitor_objects := cs1 |} z with
  | Some co => Some co
  | None => resolve {| Zipcode_objects := extra; Competitor_objects := cs2 |} z
  end.
Proof.
  unfold resolve, zip_rows. simpl. rewrite filter_app.
  destruct (filter (fun r => zip r = z) rows); reflexivity.
Qed.

End ZipTable.

Section MorePricing.

Context {geo : Geodesy}.

(** X1. On a stored price the method raises nothing but the
    [IndexError] of a failed zip lookup and the [ValueError] of the
    geodesy library: never [KeyError] (the [zip] parameter is read only
    after [get] found it), and never a decimal signal. *)
Theorem X1_only_lookup_and_geodesy_errors (db : Database) (self : Product)
    (request : HttpRequest) (ex : exn) :
  baseprice_in_field self ->
  Py.outcome (adjusted_price db self request) = Raise ex ->
  ex = IndexError \/ ex = ValueError.
Proof.
  intros Hp H. unfold Py.outcome in H.
  assert (Hno : GET request !! "zip" = None \/ GET request !! "zip" = Some "" ->
                ex = IndexError \/ ex = ValueError).
  { intros Hget. unfold adjusted_price, Py.bind in H.
    rewrite (adjusted_rate_no_zip db request [] Hget) in H. simpl in H.
    rewrite (DecFacts.mul_one _ Hp) in H. discriminate H. }
  destruct (GET request !! "zip") as [z|] eqn:Hget; [|apply Hno; left; reflexivity].
  destruct (decide (z = "")) as [->|Hz]; [apply Hno; right; reflexivity|].
  destruct (resolve db z) as [co|] eqn:Hco.
  - destruct (Competitor_objects db) as [|c cs] eqn:Hcs.
    + rewrite (adjusted_price_nobody db self request z co [] Hget Hz Hco Hcs) in H.
      simpl in H. rewrite (DecFacts.mul_one _ Hp) in H. discriminate H.
    + rewrite (adjusted_price_first db self request z co c cs [] Hget Hz Hco Hcs) in H.
      simpl in H. destruct (resolve db (competitor_zip c)) as [cz|].
      * destruct (vincenty_miles co cz) as [d|].
        -- destruct (DiscountFacts.mul_rate_returns (baseprice self)
                       (d <? 5)%float Hp) as [p Hmul].
           rewrite Hmul in H. discriminate H.
        -- injection H as <-. right. reflexivity.
      * injection H as <-. left. reflexivity.
  - rewrite (adjusted_price_unknown db self request z [] Hget Hz Hco) in H.
    simpl in H. injection H as <-. left. reflexivity.
Qed.

(** X2. Whatever the sizes of the two tables, one call appends at most
    three reads to the log and removes none. *)
Theorem X2_at_most_three_reads (db : Database) (self : Product)
    (request : HttpRequest) (log : list query) :
  exists qs : list query,
    snd (adjusted_price db self request log) = log ++ qs
    /\ length qs <= 3.
Proof.
  destruct (GET request !! "zip") as [z|] eqn:Hget.
  - destruct (decide (z = "")) as [->|Hz].
    + exists []. unfold adjusted_price, Py.bind.
      rewrite (adjusted_rate_no_zip db request log) by (right; exact Hget).
      simpl. rewrite app_nil_r. split; [reflexivity|lia].
    + destruct (resolve db z) as [co|] eqn:Hco.
      * destruct (Competitor_objects db) as [|c cs] eqn:Hcs.
        -- exists [SelectZipcode z; SelectCompetitors].
           rewrite (adjusted_price_nobody db self request z co log Hget Hz Hco Hcs).
           simpl. rewrite <- app_assoc. split; [reflexivity|lia].
        -- exists [SelectZipcode z; SelectCompetitors; SelectZipcode (competitor_zip c)].
           rewrite (adjusted_price_first db self request z co c cs log Hget Hz Hco Hcs).
           simpl. rewrite <- !app_assoc. split; [reflexivity|lia].
      * exists [SelectZipcode z].
        rewrite (adjusted_price_unknown db self request z log Hget Hz Hco).
        simpl. split; [reflexivity|lia].
  - exists []. unfold adjusted_price, Py.bind.
    rewrite (adjusted_rate_no_zip db request log) by (left; exact Hget).
    simpl. rewrite app_nil_r. split; [reflexivity|lia].
Qed.

(** X3. With a known shopper zip and an empty competitor table the loop
    body never runs: the method returns the base price after the
    shopper's lookup and the competitor query. *)
Theorem X3_no_competitors_base_price (db : Database) (self : Product)
    (request : HttpRequest) (z : string) (co : coordinate_t) :
  baseprice_in_field self ->
  GET request !! "zip" = Some z -> z <> "" ->
  resolve db z = Some co ->
  Competitor_objects db = [] ->
  Py.outcome (adjusted_price db self request) = Ok (base_price self)
  /\ Py.queries (adjusted_price db self request) =
     [SelectZipcode z; SelectCompetitors].
Proof.
  intros Hp Hget Hz Hco Hcs. unfold Py.outcome, Py.queries.
  rewrite (adjusted_price_nobody db self request z co [] Hget Hz Hco Hcs).
  simpl. split; [|reflexivity]. apply DecFacts.mul_one, Hp.
Qed.

(** X4. When the first competitor is under 5 miles, a positive stored
    price comes back strictly above its exact 80% (the decimal product
    with [Decimal('0.8')]) and strictly below the price itself. *)
Theorem X4_discount_strictly_between (db : Database) (self : Product)
    (request : HttpRequest) (z : string) (co cz : coordinate_t)
    (c : Competitor) (cs : list Competitor) (coeff : N) (e : Z)
    (miles : float) :
  baseprice self = Finite false coeff e -> coeff <> 0%N ->
  baseprice_in_field self ->
  GET request !! "zip" = Some z -> z <> "" ->
  resolve db z = Some co ->
  Competitor_objects db = c :: cs ->
  resolve db (competitor_zip c) = Some cz ->
  vincenty_miles co cz = Some miles ->
  (miles <? 5)%float = true ->
  exists p exact : Decimal,
    Py.outcome (adjusted_price db self request) = Ok p
    /\ Dec.mul (base_price self) (Finite false 8 (-1)) = Ok exact
    /\ Dec.lt exact p = Ok true
    /\ Dec.lt p (base_price self) = Ok true.
Proof.
  intros Hb Hnz Hp Hget Hz Hco Hcs Hcz Hd Hnear. unfold Py.outcome, base_price.
  rewrite (adjusted_price_first db self request z co c cs [] Hget Hz Hco Hcs).
  rewrite Hcz, Hd, Hnear. simpl. unfold baseprice_in_field in Hp. rewrite Hb in *.
  destruct (DiscountFacts.discount_between coeff e Hp Hnz) as (p & Hmul & Hlo & Hhi).
  exists p, (Finite false (coeff * 8) (e - 1)). repeat split; try assumption.
  apply DiscountFacts.mul_exact_discount, Hp.
Qed.

(** X5. For a positive stored price, when the first competitor resolves
    and the geodesy library returns its distance from the shopper, the
    method returns a price, and that price is below the base price
    exactly when the distance is under 5 miles. *)
Theorem X5_cheaper_iff_first_competitor_near (db : Database) (self : Product)
    (request : HttpRequest) (z : string) (co cz : coordinate_t)
    (c : Competitor) (cs : list Competitor) (coeff : N) (e : Z)
    (miles : float) :
  baseprice self = Finite false coeff e -> coeff <> 0%N ->
  baseprice_in_field self ->
  GET request !! "zip" = Some z -> z <> "" ->
  resolve db z = Some co ->
  Competitor_objects db = c :: cs ->
  resolve db (competitor_zip c) = Some cz ->
  vincenty_miles co cz = Some miles ->
  exists p : Decimal,
    Py.outcome (adjusted_price db self request) = Ok p
    /\ Dec.lt p (base_price self) = Ok (miles <? 5)%float.
Proof.
  intros Hb Hnz Hp Hget Hz Hco Hcs Hcz Hd. unfold Py.outcome, base_price.
  rewrite (adjusted_price_first db self request z co c cs [] Hget Hz Hco Hcs).
  rewrite Hcz, Hd. simpl. unfold baseprice_in_field in Hp. rewrite Hb in *.
  destruct (miles <? 5)%float.
  - destruct (DiscountFacts.discount_between coeff e Hp Hnz) as (p & Hmul & _ & Hhi).
    exists p. split; assumption.
  - exists (Finite false coeff e). split.
    + apply DecFacts.mul_one, Hp.
    + apply DiscountFacts.lt_irrefl_finite.
Qed.

(** X6. The result depends on the order of the competitor table: with a
    competitor at 5 miles or more and one under 5 miles as the first two
    rows, a positive stored price is returned as it is in one order and
    lowered in the other. *)
Theorem X6_competitor_order_matters (zs : list Zipcode) (self : Product)
    (request : HttpRequest) (z : string) (co cz1 cz2 : coordinate_t)
    (c1 c2 : Competitor) (cs : list Competitor) (coeff : N) (e : Z)
    (miles1 miles2 : float) :
  let db1 := {| Zipcode_objects := zs; Competitor_objects := c1 :: c2 :: cs |} in
  let db2 := {| Zipcode_objects := zs; Competitor_objects := c2 :: c1 :: cs |} in
  baseprice self = Finite false coeff e -> coeff <> 0%N ->
  baseprice_in_field self ->
  GET request !! "zip" = Some z -> z <> "" ->
  resolve db1 z = Some co ->
  resolve db1 (competitor_zip c1) = Some cz1 ->
  resolve db1 (competitor_zip c2) = Some cz2 ->
  vincenty_miles co cz1 = Some miles1 -> (miles1 <? 5)%float = false ->
  vincenty_miles co cz2 = Some miles2 -> (miles2 <? 5)%float = true ->
  Py.outcome (adjusted_price db1 self request) = Ok (base_price self)
  /\ (exists p, Py.outcome (adjusted_price db2 self request) = Ok p
                /\ Dec.lt p (base_price self) = Ok true)
  /\ Py.outcome (adjusted_price db1 self request)
     <> Py.outcome (adjusted_price db2 self request).
Proof.
  intros db1 db2 Hb Hnz Hp Hget Hz Hco Hcz1 Hcz2 Hd1 Hfar Hd2 Hnear.
  assert (Hres : forall x, resolve db2 x = resolve db1 x) by reflexivity.
  unfold Py.outcome, base_price.
  rewrite (adjusted_price_first db1 self request z co c1 (c2 :: cs) []
             Hget Hz Hco eq_refl).
  rewrite <- Hres in Hco.
  rewrite (adjusted_price_first db2 self request z co c2 (c1 :: cs) []
             Hget Hz Hco eq_refl).
  rewrite Hres, Hcz1, Hcz2, Hd1, Hd2, Hfar, Hnear. simpl.
  unfold baseprice_in_field in Hp. rewrite Hb in *.
  rewrite (DecFacts.mul_one _ Hp).
  destruct (DiscountFacts.discount_between coeff e Hp Hnz) as (p & Hmul & _ & Hhi).
  rewrite Hmul. split; [reflexivity|]. split.
  - exists p. split; [reflexivity|exact Hhi].
  - intros Heq. injection Heq as <-.
    rewrite DiscountFacts.lt_irrefl_finite in Hhi. discriminate Hhi.
Qed.

(** X7. A stored price of zero, discounted, is still zero, but no longer
    the stored number: its exponent is 52 places lower. *)
Theorem X7_zero_price_discounted (db : Database) (self : Product)
    (request : HttpRequest) (z : string) (co cz : coordinate_t)
    (c : Competitor) (cs : list Competitor) (s : bool) (e : Z)
    (miles : float) :
  baseprice self = Finite s 0 e ->
  baseprice_in_field self ->
  GET request !! "zip" = Some z -> z <> "" ->
  resolve db z = Some co ->
  Competitor_objects db = c :: cs ->
  resolve db (competitor_zip c) = Some cz ->
  vincenty_miles co cz = Some miles ->
  (miles <? 5)%float = true ->
  Py.outcome (adjusted_price db self request) = Ok (Finite s 0 (e - 52))
  /\ Dec.eqb (Finite s 0 (e - 52)) (base_price self) = true
  /\ Finite s 0 (e - 52) <> base_price self.
Proof.
  intros Hb Hp Hget Hz Hco Hcs Hcz Hd Hnear. unfold Py.outcome, base_price.
  rewrite (adjusted_price_first db self request z co c cs [] Hget Hz Hco Hcs).
  rewrite Hcz, Hd, Hnear. simpl. unfold baseprice_in_field in Hp. rewrite Hb in *.
  split; [apply DiscountFacts.mul_discount_zero, Hp|]. split.
  - reflexivity.
  - intros H. injection H as H. lia.
Qed.

(** X8. A non-zero stored price, discounted, keeps its sign and comes
    back with a 28-digit coefficient and 12 to 30 decimal places, not the
    two decimal places of the column. *)
Theorem X8_discounted_price_has_28_digits (db : Database) (self : Product)
    (request : HttpRequest) (z : string) (co cz : coordinate_t)
    (c : Competitor) (cs : list Competitor) (s : bool) (coeff : N) (e : Z)
    (miles : float) :
  baseprice self = Finite s coeff e -> coeff <> 0%N ->
  baseprice_in_field self ->
  GET request !! "zip" = Some z -> z <> "" ->
  resolve db z = Some co ->
  Competitor_objects db = c :: cs ->
  resolve db (competitor_zip c) = Some cz ->
  vincenty_miles co cz = Some miles ->
  (miles <? 5)%float = true ->
  exists (R : N) (e' : Z),
    Py.outcome (adjusted_price db self request) = Ok (Finite s R e')
    /\ (10 ^ 27 <= R < 10 ^ 28)%N
    /\ (-30 <= e' <= -12)%Z.
Proof.
  intros Hb Hnz Hp Hget Hz Hco Hcs Hcz Hd Hnear. unfold Py.outcome.
  rewrite (adjusted_price_first db self request z co c cs [] Hget Hz Hco Hcs).
  rewrite Hcz, Hd, Hnear. simpl. unfold baseprice_in_field in Hp. rewrite Hb in *.
  destruct (DiscountFacts.mul_discount s coeff e Hp Hnz)
    as (R & j & Hmul & Hj & HR & _).
  exists R, (e - 52 + Z.of_nat j)%Z. split; [exact Hmul|]. split; [exact HR|].
  simpl in Hp. apply andb_prop in Hp as [Hp He0]. apply andb_prop in Hp as [_ He].
  apply Z.leb_le in He, He0. lia.
Qed.

(** X9. Appending rows to the zip table changes no lookup that already
    succeeded, so a price the method returned is returned again, after
    the same reads. *)
Theorem X9_price_stable_under_new_zip_rows (rows extra : list Zipcode)
    (cs : list Competitor) (self : Product) (request : HttpRequest)
    (p : Decimal) :
  let db := {| Zipcode_objects := rows; Competitor_objects := cs |} in
  let db' := {| Zipcode_objects := rows ++ extra; Competitor_objects := cs |} in
  Py.outcome (adjusted_price db self request) = Ok p ->
  Py.outcome (adjusted_price db' self request) = Ok p
  /\ Py.queries (adjusted_price db' self request) =
     Py.queries (adjusted_price db self request).
Proof.
  intros db db' H. unfold Py.outcome, Py.queries in *.
  assert (Hres : forall x co, resolve db x = Some co -> resolve db' x = Some co).
  { intros x co Hx. unfold db'. rewrite (resolve_app cs cs cs rows extra x).
    fold db. rewrite Hx. reflexivity. }
  destruct (GET request !! "zip") as [z|] eqn:Hget.
  - destruct (decide (z = "")) as [->|Hz].
    + unfold adjusted_price, Py.bind in *.
      rewrite (adjusted_rate_no_zip db' request []) by (right; exact Hget).
      rewrite (adjusted_rate_no_zip db request []) in * by (right; exact Hget).
      split; [exact H|reflexivity].
    + destruct (resolve db z) as [co|] eqn:Hco.
      * pose proof (Hres z co Hco) as Hco'.
        destruct cs as [|c cs'].
        -- rewrite (adjusted_price_nobody db' self request z co [] Hget Hz Hco' eq_refl).
           rewrite (adjusted_price_nobody db self request z co [] Hget Hz Hco eq_refl) in *.
           split; [exact H|reflexivity].
        -- rewrite (adjusted_price_first db' self request z co c cs' [] Hget Hz Hco' eq_refl).
           rewrite (adjusted_price_first db self request z co c cs' [] Hget Hz Hco eq_refl) in *.
           destruct (resolve db (competitor_zip c)) as [cz|] eqn:Hcz.
           ++ rewrite (Hres _ cz Hcz). split; [exact H|reflexivity].
           ++ simpl in H. discriminate H.
      * rewrite (adjusted_price_unknown db self request z [] Hget Hz Hco) in H.
        simpl in H. discriminate H.
  - unfold adjusted_price, Py.bind in *.
    rewrite (adjusted_rate_no_zip db' request []) by (left; exact Hget).
    rewrite (adjusted_rate_no_zip db request []) in * by (left; exact Hget).
    split; [exact H|reflexivity].
Qed.

(** X13. When the shopper's zip and the first competitor's zip resolve
    and the geodesy library raises on the two coordinates, the method
    raises that [ValueError] after its three reads and returns no
    price. *)
Theorem X13_geodesy_error_propagates (db : Database) (self : Product)
    (request : HttpRequest) (z : string) (co cz : coordinate_t)
    (c : Competitor) (cs : list Competitor) :
  GET request !! "zip" = Some z -> z <> "" ->
  resolve db z = Some co ->
  Competitor_objects db = c :: cs ->
  resolve db (competitor_zip c) = Some cz ->
  vincenty_miles co cz = None ->
  Py.outcome (adjusted_price db self request) = Raise ValueError
  /\ Py.queries (adjusted_price db self request) =
     [SelectZipcode z; SelectCompetitors; SelectZipcode (competitor_zip c)].
Proof.
  intros Hget Hz Hco Hcs Hcz Hd. unfold Py.outcome, Py.queries.
  rewrite (adjusted_price_first db self request z co c cs [] Hget Hz Hco Hcs).
  rewrite Hcz, Hd. split; reflexivity.
Qed.

End MorePricing.

(** X10. A row appended to the zip table is found only under its own zip,
    and only when no earlier row has that zip; every other lookup is as
    before. *)
Theorem X10_lookup_after_appending_a_row (cs : list Competitor)
    (rows : list Zipcode) (r : Zipcode) (z : string) :
  resolve {| Zipcode_objects := rows ++ [r]; Competitor_objects := cs |} z =
  match resolve {| Zipcode_objects := rows; Competitor_objects := cs |} z with
  | Some co => Some co
  | None => if decide (zip r = z) then Some (coordinate r) else None
  end.
Proof.
  rewrite (resolve_app cs cs cs rows [r] z).
  destruct (resolve {| Zipcode_objects := rows; Competitor_objects := cs |} z);
    [reflexivity|].
  unfold resolve, zip_rows. simpl. rewrite filter_cons.
  destruct (decide (zip r = z)); reflexivity.
Qed.

(** X11. [Competitor.__str__] puts nothing between the name and the
    address, so it does not tell competitors apart: moving text from the
    end of the name to the start of the address gives another competitor
    with the same string. *)
Theorem X11_Competitor_str_not_injective (n s a z : string) :
  s <> "" ->
  let c1 := {| competitor_name := String.append n s; address := a;
               competitor_zip := z |} in
  let c2 := {| competitor_name := n; address := String.append s a;
               competitor_zip := z |} in
  c1 <> c2 /\ Competitor_str c1 = Competitor_str c2.
Proof.
  intros Hs c1 c2. split.
  - intros H. injection H as H _. exact (append_nonempty_neq n s Hs H).
  - unfold Competitor_str. simpl. apply append_assoc3.
Qed.

(** X12. Among zip rows of one city and state, [Zipcode.__str__] tells
    the zips apart: equal strings mean equal zips. *)
Theorem X12_Zipcode_str_determines_zip (r1 r2 : Zipcode) :
  city r1 = city r2 -> state r1 = state r2 ->
  Zipcode_str r1 = Zipcode_str r2 ->
  zip r1 = zip r2.
Proof.
  intros Hc Hs H. unfold Zipcode_str in H. rewrite Hc, Hs in H.
  exact (append_cancel_l _ _ _ H).
Qed.

(* ===================================================================== *)
(** * Further properties on the sample store *)
(* ===================================================================== *)

(** X1 with the unknown shopper zip 99999. *)
Lemma X1_unknown_zip_raises_IndexError :
  Py.outcome (adjusted_price (geo := degree_miles)
    (store [near_shop]) widget (from_zip "99999")) = Raise IndexError
  /\ (IndexError = IndexError \/ IndexError = ValueError).
Proof.
  split; [reflexivity|].
  apply (X1_only_lookup_and_geodesy_errors (geo := degree_miles)
           (store [near_shop]) widget (from_zip "99999") IndexError);
    reflexivity.
Defined.

(** X3 with an empty competitor table. *)
Lemma X3_empty_competitor_table :
  Competitor_objects (store []) = []
  /\ Py.outcome (adjusted_price (geo := degree_miles)
       (store []) widget (from_zip "94103")) = Ok (base_price widget)
  /\ Py.queries (adjusted_price (geo := degree_miles)
       (store []) widget (from_zip "94103"))
     = [SelectZipcode "94103"; SelectCompetitors].
Proof.
  split; [reflexivity|].
  apply (X3_no_competitors_base_price (geo := degree_miles)
           (store []) widget (from_zip "94103") "94103"
           (coordinate san_francisco));
    try reflexivity.
  discriminate.
Defined.

(** X4 with the price 100.00 and [near_shop] first. *)
Lemma X4_widget_near_shop :
  (exists miles,
     @vincenty_miles degree_miles (coordinate san_francisco)
       (coordinate civic_center) = Some miles
     /\ (miles <? 5)%float = true)
  /\ exists p exact : Decimal,
       Py.outcome (adjusted_price (geo := degree_miles)
         (store [near_shop; far_shop]) widget (from_zip "94103")) = Ok p
       /\ Dec.mul (base_price widget) (Finite false 8 (-1)) = Ok exact
       /\ Dec.lt exact p = Ok true
       /\ Dec.lt p (base_price widget) = Ok true.
Proof.
  split; [eexists; split; reflexivity|].
  eapply (X4_discount_strictly_between (geo := degree_miles)
            (store [near_shop; far_shop]) widget (from_zip "94103") "94103"
            (coordinate san_francisco) (coordinate civic_center)
            near_shop [far_shop] 10000%N (-2)%Z);
    try reflexivity; discriminate.
Defined.

(** X5 with the price 100.00 and [far_shop] first. *)
Lemma X5_widget_far_shop :
  exists miles,
    @vincenty_miles degree_miles (coordinate san_francisco)
      (coordinate new_york) = Some miles
    /\ exists p : Decimal,
         Py.outcome (adjusted_price (geo := degree_miles)
           (store [far_shop; near_shop]) widget (from_zip "94103")) = Ok p
         /\ Dec.lt p (base_price widget) = Ok (miles <? 5)%float.
Proof.
  eexists. split; [reflexivity|].
  apply (X5_cheaper_iff_first_competitor_near (geo := degree_miles)
           (store [far_shop; near_shop]) widget (from_zip "94103") "94103"
           (coordinate san_francisco) (coordinate new_york)
           far_shop [near_shop] 10000%N (-2)%Z);
    try reflexivity; discriminate.
Defined.

(** X6 with [far_shop] and [near_shop] in the two orders. *)
Lemma X6_far_near_and_near_far :
  (exists miles,
     @vincenty_miles degree_miles (coordinate san_francisco)
       (coordinate new_york) = Some miles
     /\ (miles <? 5)%float = false)
  /\ (exists miles,
        @vincenty_miles degree_miles (coordinate san_francisco)
          (coordinate civic_center) = Some miles
        /\ (miles <? 5)%float = true)
  /\ Py.outcome (adjusted_price (geo := degree_miles)
       {| Zipcode_objects := zipcodes;
          Competitor_objects := [far_shop; near_shop] |}
       widget (from_zip "94103")) = Ok (base_price widget)
  /\ (exists p,
        Py.outcome (adjusted_price (geo := degree_miles)
          {| Zipcode_objects := zipcodes;
             Competitor_objects := [near_shop; far_shop] |}
          widget (from_zip "94103")) = Ok p
        /\ Dec.lt p (base_price widget) = Ok true)
  /\ Py.outcome (adjusted_price (geo := degree_miles)
       {| Zipcode_objects := zipcodes;
          Competitor_objects := [far_shop; near_shop] |}
       widget (from_zip "94103"))
     <> Py.outcome (adjusted_price (geo := degree_miles)
          {| Zipcode_objects := zipcodes;
             Competitor_objects := [near_shop; far_shop] |}
          widget (from_zip "94103")).
Proof.
  split; [eexists; split; reflexivity|].
  split; [eexists; split; reflexivity|].
  eapply (X6_competitor_order_matters (geo := degree_miles) zipcodes widget
            (from_zip "94103") "94103" (coordinate san_francisco)
            (coordinate new_york) (coordinate civic_center)
            far_shop near_shop [] 10000%N (-2)%Z);
    try reflexivity; discriminate.
Defined.

(** X7 with a product priced 0.00 and [near_shop] first. *)
Lemma X7_free_product :
  Dec.in_field 15 2 (Finite false 0 (-2)) = true
  /\ Py.outcome (adjusted_price (geo := degree_miles) (store [near_shop])
       {| name := "sample"; baseprice := Finite false 0 (-2) |}
       (from_zip "94103")) = Ok (Finite false 0 (-2 - 52))
  /\ Dec.eqb (Finite false 0 (-2 - 52))
       (base_price {| name := "sample"; baseprice := Finite false 0 (-2) |})
     = true
  /\ Finite false 0 (-2 - 52)
     <> base_price {| name := "sample"; baseprice := Finite false 0 (-2) |}.
Proof.
  split; [reflexivity|].
  eapply (X7_zero_price_discounted (geo := degree_miles) (store [near_shop])
            {| name := "sample"; baseprice := Finite false 0 (-2) |}
            (from_zip "94103") "94103" (coordinate san_francisco)
            (coordinate civic_center) near_shop [] false (-2)%Z);
    try reflexivity.
  discriminate.
Defined.

(** X8 with the price 100.00 and [near_shop] first. *)
Lemma X8_widget_discounted :
  baseprice widget = Finite false 10000 (-2)
  /\ exists (R : N) (e' : Z),
       Py.outcome (adjusted_price (geo := degree_miles)
         (store [near_shop]) widget (from_zip "94103")) = Ok (Finite false R e')
       /\ (10 ^ 27 <= R < 10 ^ 28)%N
       /\ (-30 <= e' <= -12)%Z.
Proof.
  split; [reflexivity|].
  eapply (X8_discounted_price_has_28_digits (geo := degree_miles)
            (store [near_shop]) widget (from_zip "94103") "94103"
            (coordinate san_francisco) (coordinate civic_center)
            near_shop [] false 10000%N (-2)%Z);
    try reflexivity; discriminate.
Defined.

(** X9 with a second row for zip 94102 appended to the table. *)
Lemma X9_row_appended :
  Py.outcome (adjusted_price (geo := degree_miles)
    {| Zipcode_objects := zipcodes; Competitor_objects := [near_shop] |}
    widget (from_zip "94103"))
  = Ok (Finite false 8000000000000000444089209850 (-26))
  /\ Py.outcome (adjusted_price (geo := degree_miles)
       {| Zipcode_objects := zipcodes ++ [civic_center_dup];
          Competitor_objects := [near_shop] |}
       widget (from_zip "94103"))
     = Ok (Finite false 8000000000000000444089209850 (-26))
  /\ Py.queries (adjusted_price (geo := degree_miles)
       {| Zipcode_objects := zipcodes ++ [civic_center_dup];
          Competitor_objects := [near_shop] |}
       widget (from_zip "94103"))
     = Py.queries (adjusted_price (geo := degree_miles)
         {| Zipcode_objects := zipcodes; Competitor_objects := [near_shop] |}
         widget (from_zip "94103")).
Proof.
  split; [vm_compute; reflexivity|].
  apply (X9_price_stable_under_new_zip_rows (geo := degree_miles) zipcodes
           [civic_center_dup] [near_shop] widget (from_zip "94103")
           (Finite false 8000000000000000444089209850 (-26))).
  vm_compute. reflexivity.
Defined.

(** X11 with the text "1" moved from the name to the address. *)
Lemma X11_near1_market :
  let c1 := {| competitor_name := String.append "Near" "1";
               address := " Market St"; competitor_zip := "94102" |} in
  let c2 := {| competitor_name := "Near";
               address := String.append "1" " Market St";
               competitor_zip := "94102" |} in
  c1 <> c2 /\ Competitor_str c1 = Competitor_str c2.
Proof.
  apply (X11_Competitor_str_not_injective "Near" "1" " Market St" "94102").
  discriminate.
Defined.

(** X12 with the two sample rows for zip 94102. *)
Lemma X12_two_rows_for_94102 :
  Zipcode_str civic_center = Zipcode_str civic_center_dup
  /\ zip civic_center = zip civic_center_dup.
Proof.
  split; [reflexivity|].
  apply (X12_Zipcode_str_determines_zip civic_center civic_center_dup);
    reflexivity.
Defined.

(** X13 with a geodesy library that raises on every pair. *)
Lemma X13_no_distance_available :
  @vincenty_miles no_distance (coordinate san_francisco)
    (coordinate civic_center) = None
  /\ Py.outcome (adjusted_price (geo := no_distance)
       (store [near_shop]) widget (from_zip "94103")) = Raise ValueError
  /\ Py.queries (adjusted_price (geo := no_distance)
       (store [near_shop]) widget (from_zip "94103"))
     = [SelectZipcode "94103"; SelectCompetitors; SelectZipcode "94102"].
Proof.
  split; [reflexivity|].
  apply (X13_geodesy_error_propagates (geo := no_distance)
           (store [near_shop]) widget (from_zip "94103") "94103"
           (coordinate san_francisco) (coordinate civic_center)
           near_shop []);
    try reflexivity.
  discriminate.
Defined.
